(** * Workout Planner API: a shallow embedding of [main.py]

    The HTTP handlers of [main.py] are embedded as functions over an explicit
    database handle.  A document is a finite map from field names to values,
    a collection is the list of its documents in insertion order, and a
    handler is a computation in a small state-and-exception monad whose state
    is the module-level handle [db] ([None] when no connection is configured).

    The pymongo collection operations the handlers call ([find_one],
    [update_one], [delete_one]) act on the first document that matches the
    filter.  The identifier a store assigns to a new document and
    the server clock are inputs: the identifier is an argument of the
    handler, the clock is part of the database state. *)

From Stdlib Require Import ZArith Ascii String.
From stdpp Require Import base decidable option list strings pretty gmap fin_maps.

Local Open Scope Z_scope.
Local Open Scope string_scope.

(** ** Store-native identifiers (bson's [ObjectId]) *)

(** An [ObjectId] is twelve bytes; [str] prints them as twenty-four lower-case
    hexadecimal digits and [ObjectId(s)] accepts a string of twenty-four
    hexadecimal digits of either case.  The identifier is carried in its
    printed form, so that two identifiers are equal exactly when their bytes
    are. *)

Definition between (lo hi n : nat) : bool := (lo <=? n)%nat && (n <=? hi)%nat.

Definition is_lower_hex (c : ascii) : bool :=
  let n := nat_of_ascii c in between 48 57 n || between 97 102 n.

Definition is_hexdigit (c : ascii) : bool :=
  let n := nat_of_ascii c in
  between 48 57 n || between 65 70 n || between 97 102 n.

Definition hex_lower (c : ascii) : ascii :=
  let n := nat_of_ascii c in
  if between 65 70 n then ascii_of_nat (n + 32) else c.

Fixpoint string_forallb (p : ascii → bool) (s : string) : bool :=
  match s with
  | EmptyString => true
  | String c s' => p c && string_forallb p s'
  end.

Fixpoint string_map (f : ascii → ascii) (s : string) : string :=
  match s with
  | EmptyString => EmptyString
  | String c s' => String (f c) (string_map f s')
  end.

Definition oid_hex_ok (h : string) : bool :=
  (String.length h =? 24)%nat && string_forallb is_lower_hex h.

Definition ObjectId : Type := { h : string | Is_true (oid_hex_ok h) }.

(** [str(oid)] *)
Definition str_ObjectId (o : ObjectId) : string := proj1_sig o.

(** [ObjectId.is_valid(s)] for a string [s] *)
Definition ObjectId_is_valid (s : string) : bool :=
  (String.length s =? 24)%nat && string_forallb is_hexdigit s.

(** [ObjectId(s)] for a string [s]; [None] stands for [InvalidId].  A string
    of twenty-four characters some of which are white space, which
    [bytes.fromhex] would skip, is refused here: it names no stored record
    either way, and the handlers answer 500 to it in both readings. *)
Definition ObjectId_of_str (s : string) : option ObjectId :=
  let h := string_map hex_lower s in
  match decide (Is_true (oid_hex_ok h)) with
  | left H => Some (h ↾ H)
  | right _ => None
  end.

#[global] Instance ObjectId_eq_dec : EqDecision ObjectId := _.

(** ** Values and documents *)

Inductive value : Type :=
  | VNone
  | VBool (b : bool)
  | VInt (n : Z)
  | VStr (s : string)
  | VObjectId (o : ObjectId)
  | VDatetime (t : Z).

#[global] Instance value_eq_dec : EqDecision value.
Proof. solve_decision. Defined.

Abbreviation document := (gmap string value).

(** ** [serialize_doc] *)

(** A document reference is [None] or a dictionary; [not doc] holds of
    [None] and of the empty dictionary. *)
Definition falsy (doc : option document) : bool :=
  match doc with
  | None => true
  | Some d => bool_decide (d = ∅)
  end.

Definition serialize_doc (doc : option document) : option document :=
  if falsy doc then doc
  else
    match doc with
    | None => None
    | Some d =>
        match d !! "_id" with
        | Some (VObjectId _id) =>
            Some (delete "_id" (<["id" := VStr (str_ObjectId _id)]> d))
        | _ => Some d
        end
    end.

(** Whether a looked-up field holds an [ObjectId] *)
Definition is_ObjectId (v : option value) : bool :=
  match v with
  | Some (VObjectId _) => true
  | _ => false
  end.

(** The wire form of a stored record, as the spec words it: the store's
    identifier is given in its string form under [id], and [_id] is left
    out; a record without such an identifier is given as it is. *)
Definition wire (d : document) : document :=
  match d !! "_id" with
  | Some (VObjectId o) => delete "_id" (<["id" := VStr (str_ObjectId o)]> d)
  | _ => d
  end.

(** ** Exceptions *)

(** Every exception the handlers can meet is an instance of Python's
    [Exception]; [HTTPException] is one of them. *)
Inductive exn : Type :=
  | HTTPException (status_code : Z) (detail : string)
  | InvalidId (oid : string)
  | TypeError (msg : string)
  | DuplicateKeyError (msg : string)
  | NotImplementedError (msg : string)
  | OverflowError (msg : string)
  | Exception (msg : string).

(** [str(e)]: an [HTTPException] prints as its status code, a colon and its
    detail; the other exceptions print their message. *)
Definition str_exn (e : exn) : string :=
  match e with
  | HTTPException status_code detail => pretty status_code +:+ ": " +:+ detail
  | InvalidId oid =>
      "'" +:+ oid +:+
      "' is not a valid ObjectId, it must be a 12-byte input or a 24-character hex string"
  | TypeError msg | DuplicateKeyError msg | NotImplementedError msg
  | OverflowError msg | Exception msg => msg
  end.

(** ** The database handle *)

Record Database : Type := mkDatabase {
  collections : gmap string (list document);
  serverStatus : document
}.

(** [database.db]: [None] when no connection is configured. *)
Abbreviation Handle := (option Database).

Definition coll (db : Database) (name : string) : list document :=
  default [] (collections db !! name).

Definition set_coll (name : string) (l : list document) (db : Database) : Database :=
  {| collections := <[name := l]> (collections db);
     serverStatus := serverStatus db |}.

(** ** Computations over the handle that may raise *)

Definition M (A : Type) : Type := Handle → Handle * (exn + A).

Definition ret {A} (a : A) : M A := λ h, (h, inr a).
Definition raise {A} (e : exn) : M A := λ h, (h, inl e).
Definition bind {A B} (m : M A) (k : A → M B) : M B :=
  λ h, match m h with
       | (h', inr a) => k a h'
       | (h', inl e) => (h', inl e)
       end.

(** [try: m  except Exception as e: handler e].  What [m] changed before it
    raised stays changed. *)
Definition try_except {A} (m : M A) (handler : exn → M A) : M A :=
  λ h, match m h with
       | (h', inl e) => handler e h'
       | (h', inr a) => (h', inr a)
       end.

Notation "x <- m ;; k" := (bind m (λ x, k))
  (at level 100, m at next level, right associativity).

(** ** pymongo's collection operations *)

(** A filter is a document of required field values.  A field required to be
    null also matches a document that lacks the field. *)
Definition field_matches (d : document) (k : string) (v : value) : bool :=
  match d !! k with
  | Some w => bool_decide (w = v)
  | None => bool_decide (v = VNone)
  end.

Definition matches (q d : document) : bool :=
  bool_decide (map_Forall (λ k v, Is_true (field_matches d k v)) q).

Fixpoint find_first (q : document) (l : list document) : option document :=
  match l with
  | [] => None
  | d :: l' => if matches q d then Some d else find_first q l'
  end.

(** [$set]: the fields of [upd] replace or extend those of the first match.
    [None] when no document matches. *)
Fixpoint update_first (q upd : document) (l : list document) : option (list document) :=
  match l with
  | [] => None
  | d :: l' =>
      if matches q d then Some ((upd ∪ d) :: l')
      else cons d <$> update_first q upd l'
  end.

Fixpoint delete_first (q : document) (l : list document) : option (list document) :=
  match l with
  | [] => None
  | d :: l' =>
      if matches q d then Some l'
      else cons d <$> delete_first q l'
  end.

Record UpdateResult : Type := { matched_count : Z }.
Record DeleteResult : Type := { deleted_count : Z }.

Definition not_subscriptable : exn :=
  TypeError "'NoneType' object is not subscriptable".

(** [db[name]]: the collection of that name, or [TypeError] on a [None]
    handle.  A collection object is its name. *)
Definition db_getitem (name : string) : M string :=
  λ h, match h with
       | Some _ => (h, inr name)
       | None => (h, inl not_subscriptable)
       end.

Definition find_one (c : string) (q : document) : M (option document) :=
  λ h, match h with
       | Some db => (h, inr (find_first q (coll db c)))
       | None => (h, inl not_subscriptable)
       end.

(** What bson can encode: an integer must fit eight bytes. *)
Definition encodable (v : value) : bool :=
  match v with
  | VInt n => ((- 2 ^ 63 <=? n) && (n <? 2 ^ 63))%Z
  | _ => true
  end.

Definition bson_encodable (d : document) : bool :=
  bool_decide (map_Forall (λ _ v, Is_true (encodable v)) d).

(** [update_one(q, {"$set": upd})]: the update is encoded before it is
    sent, so an integer out of range raises and nothing is changed. *)
Definition update_one (c : string) (q upd : document) : M UpdateResult :=
  λ h, match h with
       | Some db =>
           if bson_encodable upd then
             match update_first q upd (coll db c) with
             | Some l' => (Some (set_coll c l' db), inr {| matched_count := 1 |})
             | None => (h, inr {| matched_count := 0 |})
             end
           else (h, inl (OverflowError "MongoDB can only handle up to 8-byte ints"))
       | None => (h, inl not_subscriptable)
       end.

Definition delete_one (c : string) (q : document) : M DeleteResult :=
  λ h, match h with
       | Some db =>
           match delete_first q (coll db c) with
           | Some l' => (Some (set_coll c l' db), inr {| deleted_count := 1 |})
           | None => (h, inr {| deleted_count := 0 |})
           end
       | None => (h, inl not_subscriptable)
       end.

(** What [bool(db)] raises on a pymongo [Database] *)
Definition no_truth_value : exn :=
  NotImplementedError
    "Database objects do not implement truth value testing or bool(). Please compare with None instead: database is not None".

(** [bool(db)] in [... if db else None]: [None] is false, and a pymongo
    [Database] does not implement truth value testing: [bool(db)] raises
    [NotImplementedError]. *)
Definition db_truthy : M bool :=
  λ h, match h with
       | Some _ => (h, inl no_truth_value)
       | None => (h, inr false)
       end.

(** [db.command({"serverStatus": 1})] *)
Definition command_serverStatus : M document :=
  λ h, match h with
       | Some db => (h, inr (serverStatus db))
       | None => (h, inl (TypeError "'NoneType' object has no attribute 'command'"))
       end.

(** [dict.get(key)] *)
Definition dict_get (d : document) (k : string) : value := default VNone (d !! k).

(** [ObjectId(s)] as a computation *)
Definition ObjectId_ (s : string) : M ObjectId :=
  match ObjectId_of_str s with
  | Some o => ret o
  | None => raise (InvalidId s)
  end.

(** ** Schemas *)

Definition opt_value {A} (inj : A → value) (o : option A) : value :=
  match o with
  | Some a => inj a
  | None => VNone
  end.

Module Workout.

(** Modelled from the spec: [schemas.Workout] is not among the sources.  The
    create contract: [title] (text), [sets] (integer), [reps] (integer) and
    [day] (text) are required, [notes] and [completed] are optional. *)
Record t : Type := mk {
  title : string;
  sets : Z;
  reps : Z;
  day : string;
  notes : option string;
  completed : option bool
}.

(** Modelled from the spec: the validated item serialized to a storage
    document, one field per attribute, an unset optional one as null. *)
Definition model_dump (item : t) : document :=
  <["title" := VStr (title item)]>
  (<["sets" := VInt (sets item)]>
  (<["reps" := VInt (reps item)]>
  (<["day" := VStr (day item)]>
  (<["notes" := opt_value VStr (notes item)]>
  (<["completed" := opt_value VBool (completed item)]> ∅))))).

Definition required_str (body : document) (k : string) : option string :=
  match body !! k with
  | Some (VStr s) => Some s
  | _ => None
  end.

Definition required_int (body : document) (k : string) : option Z :=
  match body !! k with
  | Some (VInt n) => Some n
  | _ => None
  end.

Definition optional_str (body : document) (k : string) : option (option string) :=
  match body !! k with
  | None | Some VNone => Some None
  | Some (VStr s) => Some (Some s)
  | Some _ => None
  end.

Definition optional_bool (body : document) (k : string) : option (option bool) :=
  match body !! k with
  | None | Some VNone => Some None
  | Some (VBool b) => Some (Some b)
  | Some _ => None
  end.

(** Modelled from the spec: validation of a request body against the create
    contract; [None] when a required field is missing or a field is
    mistyped. *)
Definition validate (body : document) : option t :=
  title ← required_str body "title";
  sets ← required_int body "sets";
  reps ← required_int body "reps";
  day ← required_str body "day";
  notes ← optional_str body "notes";
  completed ← optional_bool body "completed";
  Some (mk title sets reps day notes completed).

End Workout.

Module UpdateWorkout.

(** Every field is optional.  The outer [None] is a field the request did not
    set; [Some None] is a field the request set to null. *)
Record t : Type := mk {
  title : option (option string);
  sets : option (option Z);
  reps : option (option Z);
  day : option (option string);
  notes : option (option string);
  completed : option (option bool)
}.

Definition dump_field {A} (k : string) (inj : A → value) (f : option (option A))
    (d : document) : document :=
  match f with
  | Some v => <[k := opt_value inj v]> d
  | None => d
  end.

(** [payload.model_dump(exclude_unset=True)] *)
Definition model_dump_exclude_unset (payload : t) : document :=
  dump_field "title" VStr (title payload)
  (dump_field "sets" VInt (sets payload)
  (dump_field "reps" VInt (reps payload)
  (dump_field "day" VStr (day payload)
  (dump_field "notes" VStr (notes payload)
  (dump_field "completed" VBool (completed payload) ∅))))).

(** The body [{}] *)
Definition unset : t := mk None None None None None None.

(** The body [{"completed": true}] *)
Definition only_completed : t := mk None None None None None (Some (Some true)).

End UpdateWorkout.

(** ** The persistence accessor *)

(** Modelled from the spec: [database.create_document] is not among the
    sources.  It serializes the validated item to a storage document,
    inserts it and returns the newly assigned identifier, in its string
    form; it fails if the connection is unavailable.  The store refuses an
    identifier that a stored document already has. *)
Definition create_document (new_id : ObjectId) (collection_name : string)
    (item : Workout.t) : M string :=
  λ h, match h with
       | Some db =>
           let d := <["_id" := VObjectId new_id]> (Workout.model_dump item) in
           match find_first {["_id" := VObjectId new_id]} (coll db collection_name) with
           | Some _ => (h, inl (DuplicateKeyError "E11000 duplicate key error"))
           | None =>
               (Some (set_coll collection_name (coll db collection_name ++ [d]) db),
                inr (str_ObjectId new_id))
           end
       | None => (h, inl (Exception "Database not available"))
       end.

(** Modelled from the spec: [database.get_documents] is not among the
    sources.  It returns all matching documents, the empty filter matches
    all, and it fails if the connection is unavailable. *)
Definition get_documents (collection_name : string) (filter_dict : document)
    : M (list document) :=
  λ h, match h with
       | Some db => (h, inr (filter (λ d, Is_true (matches filter_dict d)) (coll db collection_name)))
       | None => (h, inl (Exception "Database not available"))
       end.

(** ** The handlers of [main.py] *)

(** [except Exception as e: raise HTTPException(status_code=500, detail=str(e))] *)
Definition internal_error {A} (e : exn) : M A :=
  raise (HTTPException 500 (str_exn e)).

(** Truth value of an [Optional[str]]: [None] and the empty string are false. *)
Definition truthy_str (s : option string) : bool :=
  match s with
  | None | Some "" => false
  | Some _ => true
  end.

Section list_workouts.

(** The accessor the handler calls *)
Variable get_documents_ : string → document → M (list document).

Definition list_workouts_with (day : option string) : M (list (option document)) :=
  try_except
    (let filter_q :=
       if truthy_str day then {["day" := opt_value VStr day]} else ∅ in
     docs <- get_documents_ "workout" filter_q;;
     ret (map (λ d, serialize_doc (Some d)) docs))
    internal_error.

End list_workouts.

Definition list_workouts : option string → M (list (option document)) :=
  list_workouts_with get_documents.

Definition create_workout (new_id : ObjectId) (item : Workout.t) : M (option document) :=
  try_except
    (inserted_id <- create_document new_id "workout" item;;
     c <- db_getitem "workout";;
     _id <- ObjectId_ inserted_id;;
     created <- find_one c {["_id" := VObjectId _id]};;
     ret (serialize_doc created))
    internal_error.

Definition update_workout (workout_id : string) (payload : UpdateWorkout.t)
    : M (option document) :=
  try_except
    (let update_data := UpdateWorkout.model_dump_exclude_unset payload in
     if bool_decide (update_data = ∅)
     then raise (HTTPException 400 "No fields to update")
     else
       connected <- db_truthy;;
       localTime <- (if connected : bool
                     then (status <- command_serverStatus;;
                           ret (dict_get status "localTime"))
                     else ret VNone);;
       let update_data := <["updated_at" := localTime]> update_data in
       c <- db_getitem "workout";;
       _id <- ObjectId_ workout_id;;
       res <- update_one c {["_id" := VObjectId _id]} update_data;;
       if bool_decide (matched_count res = 0)
       then raise (HTTPException 404 "Workout not found")
       else
         c <- db_getitem "workout";;
         _id <- ObjectId_ workout_id;;
         updated <- find_one c {["_id" := VObjectId _id]};;
         ret (serialize_doc updated))
    internal_error.

Definition delete_workout (workout_id : string) : M document :=
  try_except
    (c <- db_getitem "workout";;
     _id <- ObjectId_ workout_id;;
     res <- delete_one c {["_id" := VObjectId _id]};;
     if bool_decide (deleted_count res = 0)
     then raise (HTTPException 404 "Workout not found")
     else ret {["success" := VBool true]})
    internal_error.

(** ** The routes *)

Inductive content (A : Type) : Type :=
  | Payload (a : A)
  | Detail (detail : string)
  | ValidationError
  | NoContent.
Arguments Payload {A} a.
Arguments Detail {A} detail.
Arguments ValidationError {A}.
Arguments NoContent {A}.

Record response (A : Type) : Type := mkResponse {
  status : Z;
  body : content A
}.
Arguments mkResponse {A} status body.
Arguments status {A} r.
Arguments body {A} r.

(** What the framework answers for a handler declared with status code
    [declared]: its return value under that code (no body under 204), an
    [HTTPException] under its own code with its detail. *)
Definition respond {A} (declared : Z) (r : exn + A) : response A :=
  match r with
  | inr a => mkResponse declared (if bool_decide (declared = 204) then NoContent else Payload a)
  | inl (HTTPException status_code detail) => mkResponse status_code (Detail detail)
  | inl _ => mkResponse 500 (Detail "Internal Server Error")
  end.

Definition route {A} (declared : Z) (handler : M A) (h : Handle) : Handle * response A :=
  let '(h', r) := handler h in (h', respond declared r).

(** [GET /api/workouts?day=] *)
Definition GET_workouts (day : option string) : Handle → Handle * response (list (option document)) :=
  route 200 (list_workouts day).

(** [POST /api/workouts]: the body is validated against [Workout] before the
    handler is called; a body that fails validation is answered 422 and the
    handler does not run. *)
Definition POST_workouts (new_id : ObjectId) (json : document) (h : Handle)
    : Handle * response (option document) :=
  match Workout.validate json with
  | Some item => route 201 (create_workout new_id item) h
  | None => (h, mkResponse 422 ValidationError)
  end.

(** [PATCH /api/workouts/{workout_id}] once the body has passed validation
    against [UpdateWorkout], which is when the handler runs; a body that
    fails validation is answered 422 by the framework and is not a
    [UpdateWorkout.t]. *)
Definition PATCH_workout (workout_id : string) (payload : UpdateWorkout.t)
    : Handle → Handle * response (option document) :=
  route 200 (update_workout workout_id payload).

(** [DELETE /api/workouts/{workout_id}] *)
Definition DELETE_workout (workout_id : string) : Handle → Handle * response document :=
  route 204 (delete_workout workout_id).

(** ** Sample data *)

Definition oid_a : ObjectId := "0123456789abcdef01234567" ↾ I.
Definition oid_b : ObjectId := "aaaaaaaaaaaaaaaaaaaaaaaa" ↾ I.

Definition squat : Workout.t := Workout.mk "Squat" 5 5 "Monday" None None.

Definition squat_doc : document :=
  <["_id" := VObjectId oid_a]> (Workout.model_dump squat).

Definition clock : document := {["localTime" := VDatetime 1000]}.

Definition empty_store : Database := mkDatabase ∅ clock.
Definition squat_store : Database := mkDatabase {["workout" := [squat_doc]]} clock.

(** ** Identifiers of a collection *)

(** The [_id] of every document of a collection, in stored order *)
Definition doc_ids (l : list document) : list (option value) :=
  map (λ d, d !! "_id") l.

(** The field names of [UpdateWorkout] *)
Definition update_fields : list string :=
  ["title"; "sets"; "reps"; "day"; "notes"; "completed"].

(** ** [test_database] *)

Module Diagnostics.

(** The response dictionary, one field per key. *)
Record t : Type := mk {
  backend : string;
  database : string;
  database_url : option string;
  database_name : option string;
  connection_status : string;
  collections : list string
}.

Definition set_database (v : string) (r : t) : t :=
  mk (backend r) v (database_url r) (database_name r) (connection_status r) (collections r).

Definition set_database_url (v : option string) (r : t) : t :=
  mk (backend r) (database r) v (database_name r) (connection_status r) (collections r).

Definition set_database_name (v : option string) (r : t) : t :=
  mk (backend r) (database r) (database_url r) v (connection_status r) (collections r).

Definition set_connection_status (v : string) (r : t) : t :=
  mk (backend r) (database r) (database_url r) (database_name r) v (collections r).

Definition set_collections (v : list string) (r : t) : t :=
  mk (backend r) (database r) (database_url r) (database_name r) (connection_status r) v.

(** What [test_database] reads of a handle that is not [None]: [db.name],
    when the handle has that attribute, and what
    [db.list_collection_names()] returns or raises. *)
Record Connection : Type := mkConnection {
  name : option string;
  list_collection_names : exn + list string
}.

(** The outcome of [from database import db] *)
Inductive imported : Type :=
  | Imported (db : option Connection)
  | ImportError
  | ImportRaised (e : exn).

(** A byte that continues a character of a UTF-8 string *)
Definition is_continuation (c : ascii) : bool := between 128 191 (nat_of_ascii c).

(** The first [n] characters of a UTF-8 string: a character is a byte that
    is not a continuation, with the continuation bytes that follow it. *)
Fixpoint take_chars (n : nat) (s : string) : string :=
  match s with
  | EmptyString => EmptyString
  | String c s' =>
      if is_continuation c then String c (take_chars n s')
      else match n with
           | O => EmptyString
           | S n' => String c (take_chars n' s')
           end
  end.

(** [s[:50]] *)
Definition first_50 (s : string) : string := take_chars 50 s.

(** [test_database], given the outcome of the import and [os.getenv] *)
Definition test_database (outcome : imported) (getenv : string → option string) : t :=
  let response := mk "✅ Running" "❌ Not Available" None None "Not Connected" [] in
  let response :=
    match outcome with
    | Imported (Some db) =>
        let response := set_database "✅ Available" response in
        let response := set_database_url (Some "✅ Configured") response in
        let response :=
          set_database_name (Some (default "✅ Connected" (name db))) response in
        let response := set_connection_status "Connected" response in
        match list_collection_names db with
        | inr collections_ =>
            let response := set_collections (take 10 collections_) response in
            set_database "✅ Connected & Working" response
        | inl e =>
            set_database ("⚠️  Connected but Error: " +:+ first_50 (str_exn e)) response
        end
    | Imported None => set_database "⚠️  Available but not initialized" response
    | ImportError =>
        set_database "❌ Database module not found (run enable-database first)" response
    | ImportRaised e => set_database ("❌ Error: " +:+ first_50 (str_exn e)) response
    end in
  let response :=
    set_database_url
      (Some (if truthy_str (getenv "DATABASE_URL") then "✅ Set" else "❌ Not Set"))
      response in
  let response :=
    set_database_name
      (Some (if truthy_str (getenv "DATABASE_NAME") then "✅ Set" else "❌ Not Set"))
      response in
  response.

End Diagnostics.

(** ** More sample data *)

Definition bench : Workout.t := Workout.mk "Bench" 3 8 "Friday" (Some "slow") (Some false).

Definition bench_doc : document :=
  <["_id" := VObjectId oid_b]> (Workout.model_dump bench).

Definition two_store : Database :=
  mkDatabase {["workout" := [squat_doc; bench_doc]]} clock.

Definition rename_and_clear : UpdateWorkout.t :=
  UpdateWorkout.mk (Some (Some "Front squat")) None None None (Some None) None.

Definition oid_c : ObjectId := "bbbbbbbbbbbbbbbbbbbbbbbb" ↾ I.

Definition row : Workout.t := Workout.mk "Row" 4 10 "monday" None None.
Definition press : Workout.t := Workout.mk "Press" 3 5 "Mondays" None None.

Definition row_doc : document :=
  <["_id" := VObjectId oid_b]> (Workout.model_dump row).

Definition press_doc : document :=
  <["_id" := VObjectId oid_c]> (Workout.model_dump press).

(** Three records whose days are ["Monday"], ["monday"] and ["Mondays"] *)
Definition week_store : Database :=
  mkDatabase {["workout" := [squat_doc; row_doc; press_doc]]} clock.

(** The first and the second sample record as they go over the wire *)
Definition squat_object : document :=
  <["id" := VStr "0123456789abcdef01234567"]>
  (<["title" := VStr "Squat"]>
  (<["sets" := VInt 5]>
  (<["reps" := VInt 5]>
  (<["day" := VStr "Monday"]>
  (<["notes" := VNone]>
  (<["completed" := VNone]> ∅)))))).


Definition eleven_names : list string :=
  ["a"; "b"; "c"; "d"; "e"; "f"; "g"; "h"; "i"; "j"; "k"].

Definition live : Diagnostics.Connection :=
  Diagnostics.mkConnection (Some "planner") (inr eleven_names).

Definition no_env (_ : string) : option string := None.

(** * Properties *)

(** ** Identifiers *)

Lemma lower_hex_fixed c : is_lower_hex c = true → hex_lower c = c.
Proof.
  destruct c as [[] [] [] [] [] [] [] []]; vm_compute; congruence.
Qed.

Lemma lower_hex_of_hexdigit c : is_lower_hex (hex_lower c) = is_hexdigit c.
Proof.
  destruct c as [[] [] [] [] [] [] [] []]; reflexivity.
Qed.

Lemma string_map_fixed f p s :
  (∀ c, p c = true → f c = c) →
  string_forallb p s = true → string_map f s = s.
Proof.
  intros Hf. induction s as [|c s IH]; simpl; [done|].
  intros [Hc Hs]%andb_prop. by rewrite Hf, IH.
Qed.

Lemma string_map_length f s : String.length (string_map f s) = String.length s.
Proof. induction s; simpl; congruence. Qed.

Lemma string_forallb_map p f s :
  string_forallb p (string_map f s) = string_forallb (λ c, p (f c)) s.
Proof. induction s; simpl; congruence. Qed.

Lemma string_forallb_ext p q s :
  (∀ c, p c = q c) → string_forallb p s = string_forallb q s.
Proof. intros E. induction s; simpl; congruence. Qed.

Lemma oid_hex_ok_lower s : oid_hex_ok (string_map hex_lower s) = ObjectId_is_valid s.
Proof.
  unfold oid_hex_ok, ObjectId_is_valid.
  rewrite string_map_length, string_forallb_map.
  f_equal. apply string_forallb_ext, lower_hex_of_hexdigit.
Qed.

(** [ObjectId(s)] succeeds exactly on the strings [ObjectId.is_valid]
    accepts. *)
Lemma ObjectId_of_str_is_Some s :
  is_Some (ObjectId_of_str s) ↔ ObjectId_is_valid s = true.
Proof.
  unfold ObjectId_of_str. rewrite <- oid_hex_ok_lower.
  destruct (decide _) as [H|H].
  - split; [intros _; by apply Is_true_true|eauto].
  - split; [by intros [? ?]|]. intros E. by apply Is_true_true in E.
Qed.

Lemma ObjectId_of_str_None s :
  ObjectId_of_str s = None ↔ ObjectId_is_valid s = false.
Proof.
  rewrite eq_None_not_Some, ObjectId_of_str_is_Some. by destruct (ObjectId_is_valid s).
Qed.

Lemma str_ObjectId_length o : String.length (str_ObjectId o) = 24%nat.
Proof.
  destruct o as [h H]. simpl. unfold oid_hex_ok in H.
  apply Is_true_true, andb_prop in H as [H _]. by apply Nat.eqb_eq.
Qed.

Lemma str_ObjectId_nonempty o : str_ObjectId o ≠ "".
Proof.
  intros E. pose proof (str_ObjectId_length o) as H. by rewrite E in H.
Qed.

(** Printing an identifier and reading it back gives the identifier. *)
Lemma ObjectId_of_str_str o : ObjectId_of_str (str_ObjectId o) = Some o.
Proof.
  destruct o as [h H]. unfold ObjectId_of_str. simpl.
  assert (string_map hex_lower h = h) as ->.
  { apply (string_map_fixed _ is_lower_hex); [apply lower_hex_fixed|].
    unfold oid_hex_ok in H. by apply Is_true_true, andb_prop in H as [_ H]. }
  destruct (decide _) as [H'|H']; [|done].
  f_equal. by apply (sig_eq_pi (λ h, Is_true (oid_hex_ok h))).
Qed.

(** ** Serialization *)

Lemma serialize_doc_falsy doc : falsy doc = true → serialize_doc doc = doc.
Proof. unfold serialize_doc. by intros ->. Qed.

Lemma serialize_doc_no_ObjectId d :
  is_ObjectId (d !! "_id") = false → serialize_doc (Some d) = Some d.
Proof.
  unfold serialize_doc. intros H. destruct (falsy (Some d)); [done|].
  by destruct (d !! "_id") as [[]|].
Qed.

Lemma serialize_doc_ObjectId d o :
  d !! "_id" = Some (VObjectId o) →
  serialize_doc (Some d) = Some (delete "_id" (<["id" := VStr (str_ObjectId o)]> d)).
Proof.
  unfold serialize_doc. intros H. simpl.
  rewrite bool_decide_eq_false_2; [by rewrite H|].
  intros ->. by rewrite lookup_empty in H.
Qed.

(** C10: [serialize_doc] is idempotent; a falsy document, and a document
    whose [_id] is not an [ObjectId], is returned as it is. *)
Theorem serialize_doc_idempotent :
  (∀ doc, serialize_doc (serialize_doc doc) = serialize_doc doc) ∧
  (∀ doc, falsy doc = true → serialize_doc doc = doc) ∧
  (∀ d, is_ObjectId (d !! "_id") = false → serialize_doc (Some d) = Some d).
Proof.
  split; [|split; [apply serialize_doc_falsy|apply serialize_doc_no_ObjectId]].
  intros doc. destruct (falsy doc) eqn:Hf.
  { by rewrite !(serialize_doc_falsy doc Hf). }
  destruct doc as [d|]; [|done].
  destruct (is_ObjectId (d !! "_id")) eqn:Hid.
  - destruct (d !! "_id") as [[| | | |o|]|] eqn:E; try done.
    rewrite (serialize_doc_ObjectId d o E).
    apply serialize_doc_no_ObjectId. by rewrite lookup_delete_eq.
  - by rewrite !(serialize_doc_no_ObjectId d Hid).
Qed.

Lemma serialize_doc_idempotent_witness :
  serialize_doc (serialize_doc (Some squat_doc)) = serialize_doc (Some squat_doc) ∧
  serialize_doc (Some ∅) = Some ∅ ∧
  serialize_doc (Some {["_id" := VStr "7"]}) = Some {["_id" := VStr "7"]}.
Proof.
  destruct serialize_doc_idempotent as (Hidem & Hfalsy & Hplain).
  split; [apply Hidem|split].
  - apply Hfalsy. reflexivity.
  - apply Hplain. reflexivity.
Defined.

(** ** Filters and the first match *)

Lemma field_matches_Some d k v :
  v ≠ VNone → field_matches d k v = bool_decide (d !! k = Some v).
Proof.
  intros Hv. unfold field_matches. destruct (d !! k) as [w|].
  - apply bool_decide_ext. split; congruence.
  - rewrite !bool_decide_eq_false_2; done.
Qed.

Lemma matches_singleton k v d :
  v ≠ VNone → matches {[k := v]} d = bool_decide (d !! k = Some v).
Proof.
  intros Hv. unfold matches. apply bool_decide_ext.
  rewrite map_Forall_singleton, field_matches_Some by done.
  apply bool_decide_spec.
Qed.

Lemma matches_empty d : matches ∅ d = true.
Proof. unfold matches. apply bool_decide_eq_true_2, map_Forall_empty. Qed.

Lemma matches_id o d :
  matches {["_id" := VObjectId o]} d = bool_decide (d !! "_id" = Some (VObjectId o)).
Proof. by apply matches_singleton. Qed.

Lemma update_first_None q upd l :
  update_first q upd l = None ↔ find_first q l = None.
Proof.
  induction l as [|d l IH]; simpl; [done|].
  destruct (matches q d); [done|].
  rewrite fmap_None. apply IH.
Qed.

Lemma delete_first_None q l :
  delete_first q l = None ↔ find_first q l = None.
Proof.
  induction l as [|d l IH]; simpl; [done|].
  destruct (matches q d); [done|].
  rewrite fmap_None. apply IH.
Qed.

(** [update_first] rewrites the first match in place and nothing else. *)
Lemma update_first_Some q upd l l' :
  update_first q upd l = Some l' →
  ∃ i d, l !! i = Some d ∧ matches q d = true ∧
         (∀ j e, (j < i)%nat → l !! j = Some e → matches q e = false) ∧
         find_first q l = Some d ∧
         l' = <[i := upd ∪ d]> l.
Proof.
  revert l'. induction l as [|d l IH]; intros l'; simpl; [done|].
  destruct (matches q d) eqn:Hd.
  - intros [= <-]. exists 0%nat, d. repeat split; try done. intros; lia.
  - intros (l'' & H & ->)%fmap_Some.
    destruct (IH _ H) as (i & e & Hi & He & Hlt & Hf & ->).
    exists (S i), e. repeat split; try done.
    intros [|j] e' Hj; simpl; [by intros [= <-]|].
    intros. apply (Hlt j); [lia|done].
Qed.

(** After the update the first match is the updated document, as long as
    the update leaves it matching. *)
Lemma find_first_update_first q upd l l' d :
  update_first q upd l = Some l' →
  find_first q l = Some d →
  matches q (upd ∪ d) = true →
  find_first q l' = Some (upd ∪ d).
Proof.
  revert l'. induction l as [|e l IH]; intros l'; simpl; [done|].
  destruct (matches q e) eqn:He.
  - intros [= <-] [= <-] Hm. simpl. by rewrite Hm.
  - intros (l'' & H & ->)%fmap_Some Hf Hm. simpl. rewrite He. by apply IH.
Qed.

Lemma find_first_app_fresh q l d :
  find_first q l = None → matches q d = true → find_first q (l ++ [d]) = Some d.
Proof.
  induction l as [|e l IH]; simpl; [by intros _ ->|].
  destruct (matches q e); [done|]. apply IH.
Qed.

Lemma coll_set_coll c l db : coll (set_coll c l db) c = l.
Proof. unfold coll, set_coll. simpl. by rewrite lookup_insert_eq. Qed.

(** ** What the handlers do *)

Lemma ObjectId__Some s o h : ObjectId_of_str s = Some o → ObjectId_ s h = (h, inr o).
Proof. unfold ObjectId_. by intros ->. Qed.

Lemma ObjectId__None s h : ObjectId_of_str s = None → ObjectId_ s h = (h, inl (InvalidId s)).
Proof. unfold ObjectId_. by intros ->. Qed.

Lemma update_workout_unset workout_id payload h :
  UpdateWorkout.model_dump_exclude_unset payload = ∅ →
  update_workout workout_id payload h =
    (h, inl (HTTPException 500 "400: No fields to update")).
Proof.
  intros E. unfold update_workout, try_except.
  by rewrite E, bool_decide_eq_true_2.
Qed.

(** A PATCH never gets past line 70 of [main.py]: an empty update set
    raises the 400, a connected handle has no truth value, and a [None]
    handle cannot be subscripted.  The [except Exception] clause turns each
    of the three into a 500, and the handle is left as it was. *)
Lemma update_workout_eval workout_id payload h :
  update_workout workout_id payload h =
    (h, inl (HTTPException 500
               (if bool_decide (UpdateWorkout.model_dump_exclude_unset payload = ∅)
                then "400: No fields to update"
                else match h with
                     | Some _ => str_exn no_truth_value
                     | None => "'NoneType' object is not subscriptable"
                     end))).
Proof.
  unfold update_workout, try_except.
  destruct (bool_decide _); [done|]. by destruct h.
Qed.

Lemma update_workout_malformed workout_id payload h :
  ObjectId_of_str workout_id = None →
  ∃ detail, update_workout workout_id payload h = (h, inl (HTTPException 500 detail)).
Proof. intros _. rewrite update_workout_eval. by eexists. Qed.

Lemma delete_workout_malformed workout_id h :
  ObjectId_of_str workout_id = None →
  ∃ detail, delete_workout workout_id h = (h, inl (HTTPException 500 detail)).
Proof.
  intros E. unfold delete_workout, try_except.
  destruct h as [db|]; unfold bind; simpl; [|by eexists].
  rewrite (ObjectId__None _ _ E). by eexists.
Qed.

Lemma delete_workout_missing workout_id db o :
  ObjectId_of_str workout_id = Some o →
  find_first {["_id" := VObjectId o]} (coll db "workout") = None →
  delete_workout workout_id (Some db) =
    (Some db, inl (HTTPException 500 "404: Workout not found")).
Proof.
  intros E Hf. unfold delete_workout, try_except, bind; simpl.
  rewrite (ObjectId__Some _ _ _ E). unfold delete_one.
  apply delete_first_None in Hf. by rewrite Hf.
Qed.

Lemma delete_workout_found workout_id db o l' :
  ObjectId_of_str workout_id = Some o →
  delete_first {["_id" := VObjectId o]} (coll db "workout") = Some l' →
  delete_workout workout_id (Some db) =
    (Some (set_coll "workout" l' db), inr {["success" := VBool true]}).
Proof.
  intros E Hf. unfold delete_workout, try_except, bind; simpl.
  rewrite (ObjectId__Some _ _ _ E). unfold delete_one. by rewrite Hf.
Qed.

(** ** Status codes of [PATCH] and [DELETE] *)

(** C1: the code departs from the claim.  A PATCH with a well-formed
    identifier and a non-empty update body, when no stored record has the
    identifier, is answered 500 and not 404.  The handler does not reach the
    update: [bool(db)] on line 70 raises on a connected handle, and the
    [except Exception] clause answers 500 with that error as detail.  The
    404 of line 73 is raised under the same clause, which would turn it
    into a 500 as it does the 400 of line 69. *)
Theorem PATCH_missing_is_500 workout_id payload db o :
  ObjectId_of_str workout_id = Some o →
  UpdateWorkout.model_dump_exclude_unset payload ≠ ∅ →
  find_first {["_id" := VObjectId o]} (coll db "workout") = None →
  PATCH_workout workout_id payload (Some db) =
    (Some db, mkResponse 500 (Detail (str_exn no_truth_value))).
Proof.
  intros _ Hne _. unfold PATCH_workout, route.
  rewrite update_workout_eval. by rewrite bool_decide_eq_false_2.
Qed.

Lemma PATCH_missing_is_500_witness :
  PATCH_workout "aaaaaaaaaaaaaaaaaaaaaaaa" UpdateWorkout.only_completed (Some squat_store) =
    (Some squat_store,
     mkResponse 500
       (Detail "Database objects do not implement truth value testing or bool(). Please compare with None instead: database is not None")).
Proof.
  apply (PATCH_missing_is_500 _ _ _ oid_b).
  - reflexivity.
  - intros E. vm_compute in E. discriminate E.
  - reflexivity.
Defined.

(** C2: the code departs from the claim in its first half.  A DELETE with a
    well-formed identifier is answered 204 when a record was deleted (the
    first record with the identifier is removed), but when no record has the
    identifier it is answered 500 and not 404: the handler's 404 is caught
    by its own [except Exception] clause. *)
Theorem DELETE_status workout_id db o :
  ObjectId_of_str workout_id = Some o →
  match delete_first {["_id" := VObjectId o]} (coll db "workout") with
  | Some l' =>
      DELETE_workout workout_id (Some db) =
        (Some (set_coll "workout" l' db), mkResponse 204 NoContent)
  | None =>
      DELETE_workout workout_id (Some db) =
        (Some db, mkResponse 500 (Detail "404: Workout not found"))
  end.
Proof.
  intros E. unfold DELETE_workout, route.
  destruct (delete_first _ _) as [l'|] eqn:Hd.
  - by rewrite (delete_workout_found _ _ _ _ E Hd).
  - apply delete_first_None in Hd. by rewrite (delete_workout_missing _ _ _ E Hd).
Qed.

Lemma DELETE_status_witness :
  DELETE_workout "0123456789abcdef01234567" (Some squat_store) =
    (Some (set_coll "workout" [] squat_store), mkResponse 204 NoContent) ∧
  DELETE_workout "0123456789abcdef01234567" (Some empty_store) =
    (Some empty_store, mkResponse 500 (Detail "404: Workout not found")).
Proof.
  split.
  - apply (DELETE_status "0123456789abcdef01234567" squat_store oid_a). reflexivity.
  - apply (DELETE_status "0123456789abcdef01234567" empty_store oid_a). reflexivity.
Defined.

(** C3: the code departs from the claim.  A PATCH whose body sets no field
    is answered 500 and not 400, whatever the identifier and the state of
    the store: the handler's 400 is caught by its own [except Exception]
    clause. *)
Theorem PATCH_unset_is_500 workout_id payload h :
  UpdateWorkout.model_dump_exclude_unset payload = ∅ →
  PATCH_workout workout_id payload h =
    (h, mkResponse 500 (Detail "400: No fields to update")).
Proof.
  intros E. unfold PATCH_workout, route.
  by rewrite (update_workout_unset _ _ _ E).
Qed.

Lemma PATCH_unset_is_500_witness :
  PATCH_workout "0123456789abcdef01234567" UpdateWorkout.unset (Some squat_store) =
    (Some squat_store, mkResponse 500 (Detail "400: No fields to update")).
Proof. apply PATCH_unset_is_500. reflexivity. Defined.

(** C8: a PATCH or a DELETE whose path identifier is not a well-formed
    [ObjectId] is answered 500 with an error detail, and leaves the handle
    and the store as they were. *)
Theorem malformed_id_is_500 workout_id payload h :
  ObjectId_is_valid workout_id = false →
  (∃ detail, PATCH_workout workout_id payload h = (h, mkResponse 500 (Detail detail))) ∧
  (∃ detail, DELETE_workout workout_id h = (h, mkResponse 500 (Detail detail))).
Proof.
  intros E%ObjectId_of_str_None. split.
  - destruct (update_workout_malformed workout_id payload h E) as [detail H].
    exists detail. unfold PATCH_workout, route. by rewrite H.
  - destruct (delete_workout_malformed workout_id h E) as [detail H].
    exists detail. unfold DELETE_workout, route. by rewrite H.
Qed.

Lemma malformed_id_is_500_witness :
  (∃ detail, PATCH_workout "squat" UpdateWorkout.only_completed (Some squat_store) =
     (Some squat_store, mkResponse 500 (Detail detail))) ∧
  (∃ detail, DELETE_workout "squat" (Some squat_store) =
     (Some squat_store, mkResponse 500 (Detail detail))).
Proof. apply malformed_id_is_500. reflexivity. Defined.

(** ** Partial update *)

(** Whatever is raised inside the [try] block of a handler, an
    [HTTPException] of the handler's own included, leaves the handler as an
    [HTTPException] with status 500. *)
Lemma try_except_internal_error {A} (m : M A) h h' e :
  try_except m internal_error h = (h', inl e) →
  ∃ detail, e = HTTPException 500 detail.
Proof.
  unfold try_except, internal_error, raise.
  destruct (m h) as [h1 [e1|a]]; intros [= _ <-] || intros [=]. by eexists.
Qed.



(** ** Creation *)

Lemma create_workout_no_db new_id item :
  create_workout new_id item None =
    (None, inl (HTTPException 500 "Database not available")).
Proof. reflexivity. Qed.

(** On a connected store the handler returns exactly when the store accepts
    the new identifier. *)
Lemma create_workout_eval new_id item db :
  let d := <["_id" := VObjectId new_id]> (Workout.model_dump item) in
  create_workout new_id item (Some db) =
    match find_first {["_id" := VObjectId new_id]} (coll db "workout") with
    | Some _ => (Some db, inl (HTTPException 500 "E11000 duplicate key error"))
    | None =>
        (Some (set_coll "workout" (coll db "workout" ++ [d]) db),
         inr (Some (delete "_id" (<["id" := VStr (str_ObjectId new_id)]> d))))
    end.
Proof.
  intros d. unfold create_workout, try_except, bind, create_document.
  destruct (find_first _ _) eqn:Hf; [done|]. simpl.
  rewrite (ObjectId__Some _ new_id) by apply ObjectId_of_str_str.
  simpl. rewrite coll_set_coll.
  assert (d !! "_id" = Some (VObjectId new_id)) as Hd by apply lookup_insert_eq.
  fold d. rewrite (find_first_app_fresh _ _ d Hf).
  - by rewrite (serialize_doc_ObjectId d new_id Hd).
  - rewrite matches_id. by apply bool_decide_eq_true_2.
Qed.

Lemma create_workout_returns new_id item h h' created :
  create_workout new_id item h = (h', inr created) →
  created = Some (delete "_id" (<["id" := VStr (str_ObjectId new_id)]>
                    (<["_id" := VObjectId new_id]> (Workout.model_dump item)))).
Proof.
  destruct h as [db|]; [|by rewrite create_workout_no_db].
  rewrite create_workout_eval. destruct (find_first _ _); [done|].
  by intros [= _ <-].
Qed.

Lemma validate_Some json item :
  Workout.validate json = Some item →
  json !! "title" = Some (VStr (Workout.title item)) ∧
  json !! "sets" = Some (VInt (Workout.sets item)) ∧
  json !! "reps" = Some (VInt (Workout.reps item)) ∧
  json !! "day" = Some (VStr (Workout.day item)).
Proof.
  unfold Workout.validate, Workout.required_str, Workout.required_int.
  destruct (json !! "title") as [[]|]; try done.
  destruct (json !! "sets") as [[]|]; try done.
  destruct (json !! "reps") as [[]|]; try done.
  destruct (json !! "day") as [[]|]; try done.
  simpl. destruct (Workout.optional_str _ _); [|done].
  simpl. destruct (Workout.optional_bool _ _); [|done].
  by intros [= <-].
Qed.

(** C4: when a POST supplies the required fields and the handler returns,
    the answer is 201 with the created object; its [id] is a non-empty
    string and its [title], [sets], [reps] and [day] are those of the
    request. *)
Theorem POST_created new_id json item h h' created :
  Workout.validate json = Some item →
  create_workout new_id item h = (h', inr created) →
  POST_workouts new_id json h = (h', mkResponse 201 (Payload created)) ∧
  ∃ d id,
    created = Some d ∧ d !! "id" = Some (VStr id) ∧ id ≠ "" ∧
    Forall (λ k, is_Some (json !! k) ∧ d !! k = json !! k)
           ["title"; "sets"; "reps"; "day"].
Proof.
  intros Hv Hc. split.
  { unfold POST_workouts, route. by rewrite Hv, Hc. }
  apply create_workout_returns in Hc as ->.
  destruct (validate_Some _ _ Hv) as (Ht & Hs & Hr & Hd).
  eexists _, (str_ObjectId new_id). split; [done|]. split; [|split].
  - by rewrite lookup_delete_ne, lookup_insert_eq.
  - apply str_ObjectId_nonempty.
  - unfold Workout.model_dump.
    repeat constructor; try (by eexists);
      rewrite ?Ht, ?Hs, ?Hr, ?Hd; by simplify_map_eq.
Qed.

Lemma POST_created_witness :
  let created := Some (delete "_id" (<["id" := VStr "0123456789abcdef01234567"]> squat_doc)) in
  POST_workouts oid_a (Workout.model_dump squat) (Some empty_store) =
    (Some (set_coll "workout" [squat_doc] empty_store),
     mkResponse 201 (Payload created)) ∧
  ∃ d id,
    created = Some d ∧ d !! "id" = Some (VStr id) ∧ id ≠ "" ∧
    Forall (λ k, is_Some (Workout.model_dump squat !! k) ∧
                 d !! k = Workout.model_dump squat !! k)
           ["title"; "sets"; "reps"; "day"].
Proof.
  apply (POST_created oid_a (Workout.model_dump squat) squat (Some empty_store)).
  - reflexivity.
  - reflexivity.
Defined.





(** C7: a POST whose body has no [title] is rejected by validation: the
    handler, and with it every call to the store, does not run, so the
    handle and the store are as they were, whatever they were. *)
Theorem POST_missing_title new_id json h :
  json !! "title" = None →
  Workout.validate json = None ∧
  POST_workouts new_id json h = (h, mkResponse 422 ValidationError).
Proof.
  intros E.
  assert (Workout.validate json = None) as Hv.
  { unfold Workout.validate, Workout.required_str. by rewrite E. }
  split; [done|]. unfold POST_workouts. by rewrite Hv.
Qed.

Lemma POST_missing_title_witness :
  let json := delete "title" (Workout.model_dump squat) in
  Workout.validate json = None ∧
  POST_workouts oid_a json (Some empty_store) =
    (Some empty_store, mkResponse 422 ValidationError).
Proof. apply POST_missing_title. reflexivity. Defined.

(** ** Listing *)

Lemma list_workouts_with_eval day db :
  list_workouts_with get_documents day (Some db) =
    (Some db,
     inr (map (λ d, serialize_doc (Some d))
            (filter (λ d, Is_true (matches
                       (if truthy_str day then {["day" := opt_value VStr day]} else ∅) d))
               (coll db "workout")))).
Proof. reflexivity. Qed.

Lemma filter_matches_empty (l : list document) :
  filter (λ d, Is_true (matches ∅ d)) l = l.
Proof.
  induction l as [|d l IH]; [done|].
  rewrite filter_cons_True; [by rewrite IH|].
  by rewrite matches_empty.
Qed.

Lemma serialize_doc_Some d : serialize_doc (Some d) = Some (wire d).
Proof.
  unfold wire. destruct (d !! "_id") as [v|] eqn:E.
  - destruct v; try (by apply serialize_doc_no_ObjectId; rewrite E).
    by apply serialize_doc_ObjectId.
  - apply serialize_doc_no_ObjectId. by rewrite E.
Qed.

(** C6: listing with [day="Monday"] on a connected store is answered 200
    with the records whose [day] is the string ["Monday"], all of them and
    no other, in stored order, each in its wire form: [id] holds the string
    of the record's identifier and [_id] is gone. *)
Theorem GET_day_Monday db :
  GET_workouts (Some "Monday") (Some db) =
    (Some db,
     mkResponse 200
       (Payload (map (λ d, Some (wire d))
                   (filter (λ d, d !! "day" = Some (VStr "Monday"))
                      (coll db "workout"))))).
Proof.
  unfold GET_workouts, route, list_workouts.
  rewrite list_workouts_with_eval. simpl. do 3 f_equal.
  erewrite list_filter_iff.
  - apply map_ext. intros d. apply serialize_doc_Some.
  - intros d. rewrite matches_singleton by done. apply bool_decide_spec.
Qed.

(** Of three records whose days are ["Monday"], ["monday"] and ["Mondays"]
    the listing gives the first alone, as the object the client sees. *)
Lemma GET_day_Monday_witness :
  GET_workouts (Some "Monday") (Some week_store) =
    (Some week_store, mkResponse 200 (Payload [Some squat_object])).
Proof. rewrite (GET_day_Monday week_store). vm_compute. reflexivity. Defined.

(** C9: listing with [day] present but empty is listing with no [day]: the
    handler passes the empty filter to the accessor in both cases, whatever
    the accessor does with it, and on a connected store the answer is 200
    with every stored record, serialized. *)
Theorem GET_empty_day :
  (∀ get_documents_ h,
     list_workouts_with get_documents_ (Some "") h =
     list_workouts_with get_documents_ None h) ∧
  (∀ h, GET_workouts (Some "") h = GET_workouts None h) ∧
  (∀ db, GET_workouts (Some "") (Some db) =
           (Some db,
            mkResponse 200
              (Payload (map (λ d, serialize_doc (Some d)) (coll db "workout"))))).
Proof.
  split; [done|]. split; [done|].
  intros db. unfold GET_workouts, route, list_workouts.
  rewrite list_workouts_with_eval. simpl. by rewrite filter_matches_empty.
Qed.

(** * Further properties of the handlers *)

(** ** What [PATCH] and [DELETE] answer, case by case *)

Lemma update_workout_no_db workout_id payload :
  ∃ detail,
    update_workout workout_id payload None = (None, inl (HTTPException 500 detail)).
Proof. rewrite update_workout_eval. by eexists. Qed.

Lemma delete_workout_eval workout_id db :
  delete_workout workout_id (Some db) =
    match ObjectId_of_str workout_id with
    | None => (Some db, inl (HTTPException 500 (str_exn (InvalidId workout_id))))
    | Some o =>
        match delete_first {["_id" := VObjectId o]} (coll db "workout") with
        | None => (Some db, inl (HTTPException 500 "404: Workout not found"))
        | Some l' => (Some (set_coll "workout" l' db), inr {["success" := VBool true]})
        end
    end.
Proof.
  unfold delete_workout, try_except, bind; simpl.
  destruct (ObjectId_of_str workout_id) as [o|] eqn:E.
  2: { by rewrite (ObjectId__None _ _ E). }
  rewrite (ObjectId__Some _ _ _ E). unfold delete_one.
  by destruct (delete_first _ _).
Qed.

Lemma delete_workout_no_db workout_id :
  delete_workout workout_id None =
    (None, inl (HTTPException 500 "'NoneType' object is not subscriptable")).
Proof. reflexivity. Qed.

Lemma update_first_is_Some q upd l :
  is_Some (update_first q upd l) ↔ is_Some (find_first q l).
Proof. rewrite <- !not_eq_None_Some. by rewrite update_first_None. Qed.

Lemma delete_first_is_Some q l :
  is_Some (delete_first q l) ↔ is_Some (find_first q l).
Proof. rewrite <- !not_eq_None_Some. by rewrite delete_first_None. Qed.

(** X2: a PATCH whose body passed validation, so that the handler runs, is
    answered 500 whatever the identifier, the body and the handle, and
    leaves the handle and the store as they were; it is never answered 200,
    400 or 404.  The detail is the printed 400 when the body sets no field,
    and otherwise the error of [bool(db)] on a connected handle and of
    [db["workout"]] on a [None] handle. *)
Theorem PATCH_status workout_id payload h :
  PATCH_workout workout_id payload h =
    (h, mkResponse 500
          (Detail (if bool_decide (UpdateWorkout.model_dump_exclude_unset payload = ∅)
                   then "400: No fields to update"
                   else match h with
                        | Some _ =>
                            "Database objects do not implement truth value testing or bool(). Please compare with None instead: database is not None"
                        | None => "'NoneType' object is not subscriptable"
                        end))).
Proof.
  unfold PATCH_workout, route. rewrite update_workout_eval.
  by destruct (bool_decide _), h.
Qed.

(** X3: a DELETE is answered 204 or 500 and nothing else, so never 404; it
    is 204 exactly when the handle is connected, the identifier is well
    formed and a stored record has it. *)
Theorem DELETE_status_cases workout_id h :
  let r := (DELETE_workout workout_id h).2 in
  (status r = 204 ∨ status r = 500) ∧
  (status r = 204 ↔
   ∃ db o, h = Some db ∧ ObjectId_of_str workout_id = Some o ∧
     is_Some (find_first {["_id" := VObjectId o]} (coll db "workout"))).
Proof.
  unfold DELETE_workout, route. destruct h as [db|].
  2: { rewrite delete_workout_no_db. simpl.
       split; [by right|]. split; [done|]. by intros (? & ? & ? & _). }
  rewrite delete_workout_eval.
  destruct (ObjectId_of_str workout_id) as [o|].
  2: { simpl. split; [by right|]. split; [done|]. by intros (? & ? & _ & ? & _). }
  destruct (delete_first _ _) as [l'|] eqn:Hu; simpl.
  - split; [by left|]. split; [|done]. intros _. exists db, o.
    repeat split; try done. apply delete_first_is_Some. by rewrite Hu.
  - split; [by right|]. split; [done|].
    intros (? & ? & [= <-] & [= <-] & Hf).
    apply delete_first_None in Hu. rewrite Hu in Hf. by destruct Hf.
Qed.

(** ** The update set *)

Lemma lookup_dump_field_ne {A} k k' inj (f : option (option A)) (d : document) :
  k ≠ k' → UpdateWorkout.dump_field k inj f d !! k' = d !! k'.
Proof.
  intros Hk. unfold UpdateWorkout.dump_field.
  destruct f; [by rewrite lookup_insert_ne|done].
Qed.

Lemma lookup_dump_field_eq {A} k inj (f : option (option A)) (d : document) :
  d !! k = None → UpdateWorkout.dump_field k inj f d !! k = opt_value inj <$> f.
Proof.
  intros Hk. unfold UpdateWorkout.dump_field.
  destruct f; [by rewrite lookup_insert_eq|done].
Qed.

Lemma update_set_other payload k :
  k ∉ update_fields →
  UpdateWorkout.model_dump_exclude_unset payload !! k = None.
Proof.
  unfold update_fields. rewrite !not_elem_of_cons. intros (?&?&?&?&?&?&_).
  unfold UpdateWorkout.model_dump_exclude_unset.
  by rewrite !lookup_dump_field_ne, lookup_empty.
Qed.

(** X4: the update set of a PATCH body holds exactly the fields the body
    set, a field set to null as null, and no other key; it is empty only
    for the body that sets no field. *)
Theorem update_set_holds_set_fields payload :
  let update_data := UpdateWorkout.model_dump_exclude_unset payload in
  update_data !! "title" = opt_value VStr <$> UpdateWorkout.title payload ∧
  update_data !! "sets" = opt_value VInt <$> UpdateWorkout.sets payload ∧
  update_data !! "reps" = opt_value VInt <$> UpdateWorkout.reps payload ∧
  update_data !! "day" = opt_value VStr <$> UpdateWorkout.day payload ∧
  update_data !! "notes" = opt_value VStr <$> UpdateWorkout.notes payload ∧
  update_data !! "completed" = opt_value VBool <$> UpdateWorkout.completed payload ∧
  (∀ k, is_Some (update_data !! k) → k ∈ update_fields) ∧
  (update_data = ∅ ↔ payload = UpdateWorkout.unset).
Proof.
  assert (∀ p,
    UpdateWorkout.model_dump_exclude_unset p !! "title"
      = opt_value VStr <$> UpdateWorkout.title p ∧
    UpdateWorkout.model_dump_exclude_unset p !! "sets"
      = opt_value VInt <$> UpdateWorkout.sets p ∧
    UpdateWorkout.model_dump_exclude_unset p !! "reps"
      = opt_value VInt <$> UpdateWorkout.reps p ∧
    UpdateWorkout.model_dump_exclude_unset p !! "day"
      = opt_value VStr <$> UpdateWorkout.day p ∧
    UpdateWorkout.model_dump_exclude_unset p !! "notes"
      = opt_value VStr <$> UpdateWorkout.notes p ∧
    UpdateWorkout.model_dump_exclude_unset p !! "completed"
      = opt_value VBool <$> UpdateWorkout.completed p) as Hfields.
  { intros p. unfold UpdateWorkout.model_dump_exclude_unset.
    repeat split;
      rewrite ?lookup_dump_field_ne by done;
      rewrite lookup_dump_field_eq; try done;
      by rewrite ?lookup_dump_field_ne, lookup_empty by done. }
  simpl. destruct (Hfields payload) as (Ht & Hs & Hr & Hd & Hn & Hc).
  repeat split; try done.
  - intros k Hk. destruct (decide (k ∈ update_fields)) as [|Hnot]; [done|].
    rewrite (update_set_other payload k Hnot) in Hk. by destruct Hk.
  - intros E. rewrite E, lookup_empty in Ht, Hs, Hr, Hd, Hn, Hc.
    destruct payload as [t s r d n c]; simpl in *.
    symmetry in Ht, Hs, Hr, Hd, Hn, Hc.
    apply fmap_None in Ht, Hs, Hr, Hd, Hn, Hc. by subst.
  - by intros ->.
Qed.

(** ** The update set and the identifier *)

Lemma update_data_no_id payload t :
  (<["updated_at" := t]> (UpdateWorkout.model_dump_exclude_unset payload) : document)
    !! "_id" = None.
Proof.
  rewrite lookup_insert_ne by done. apply update_set_other.
  unfold update_fields.
  repeat (apply not_elem_of_cons; split; [done|]). apply not_elem_of_nil.
Qed.

(** ** Identifiers under PATCH and DELETE *)

Lemma coll_set_coll_ne c c' l db : c ≠ c' → coll (set_coll c l db) c' = coll db c'.
Proof. intros Hc. unfold coll, set_coll. simpl. by rewrite lookup_insert_ne. Qed.

Lemma doc_ids_update_first q upd l l' :
  upd !! "_id" = None →
  update_first q upd l = Some l' → doc_ids l' = doc_ids l.
Proof.
  intros Hupd. revert l'. induction l as [|d l IH]; intros l'; simpl; [done|].
  destruct (matches q d).
  - intros [= <-]. simpl. by rewrite lookup_union_r.
  - intros (l'' & H & ->)%fmap_Some. simpl. by rewrite (IH _ H).
Qed.

Lemma find_first_None_Forall q l :
  find_first q l = None ↔ Forall (λ e, matches q e = false) l.
Proof.
  induction l as [|d l IH]; simpl; [by split; [constructor|]|].
  destruct (matches q d) eqn:Hd.
  - split; [done|]. intros H. apply Forall_cons_1 in H as [H _]. congruence.
  - rewrite IH. split; [by constructor|]. by intros [_ H]%Forall_cons_1.
Qed.

(** [delete_first] takes out the first match and nothing else. *)
Lemma delete_first_Some q l l' :
  delete_first q l = Some l' →
  ∃ (l1 : list document) d l2,
    l = (l1 ++ d :: l2)%list ∧ matches q d = true ∧
    Forall (λ e, matches q e = false) l1 ∧ l' = (l1 ++ l2)%list.
Proof.
  revert l'. induction l as [|d l IH]; intros l'; simpl; [done|].
  destruct (matches q d) eqn:Hd.
  - intros [= <-]. by exists [], d, l.
  - intros (l'' & H & ->)%fmap_Some.
    destruct (IH _ H) as (l1 & e & l2 & -> & He & Hl1 & ->).
    exists (d :: l1), e, l2. repeat split; try done. by constructor.
Qed.

Lemma doc_ids_app (l1 l2 : list document) :
  doc_ids (l1 ++ l2) = (doc_ids l1 ++ doc_ids l2)%list.
Proof. apply map_app. Qed.

(** With distinct identifiers, taking out the one record that matches an
    identifier leaves no record that matches it. *)
Lemma no_match_after_removal o (l1 : list document) d l2 :
  NoDup (doc_ids (l1 ++ d :: l2)) →
  d !! "_id" = Some (VObjectId o) →
  find_first {["_id" := VObjectId o]} (l1 ++ l2) = None.
Proof.
  intros Hnd Hd. apply find_first_None_Forall, Forall_forall.
  intros e He. rewrite matches_id. apply bool_decide_eq_false_2. intros Hid.
  rewrite doc_ids_app in Hnd. simpl in Hnd. rewrite Hd in Hnd.
  apply NoDup_app in Hnd as (_ & Hsep & Hnd2).
  apply NoDup_cons in Hnd2 as [Hnot _].
  assert (Some (VObjectId o) ∈ doc_ids l1 ∨ Some (VObjectId o) ∈ doc_ids l2) as [Hin|Hin].
  { apply elem_of_app in He as [He|He]; [left|right];
      rewrite <- Hid; unfold doc_ids; apply list_elem_of_fmap; by exists e. }
  - apply (Hsep _ Hin). left.
  - done.
Qed.

(** X6: whatever a PATCH is answered, on a connected store it leaves the
    identifiers of the stored workouts, their number and their order as they
    were, and touches neither another collection nor the server status. *)
Theorem PATCH_keeps_identifiers workout_id payload db :
  ∃ db',
    (PATCH_workout workout_id payload (Some db)).1 = Some db' ∧
    doc_ids (coll db' "workout") = doc_ids (coll db "workout") ∧
    length (coll db' "workout") = length (coll db "workout") ∧
    serverStatus db' = serverStatus db ∧
    ∀ c, c ≠ "workout" → coll db' c = coll db c.
Proof.
  unfold PATCH_workout, route. rewrite update_workout_eval. by exists db.
Qed.

Lemma DELETE_204_inv workout_id h h' r :
  DELETE_workout workout_id h = (h', r) →
  status r = 204 →
  ∃ db o (l1 : list document) d l2,
    h = Some db ∧ ObjectId_of_str workout_id = Some o ∧
    coll db "workout" = (l1 ++ d :: l2)%list ∧
    d !! "_id" = Some (VObjectId o) ∧
    Forall (λ e, e !! "_id" ≠ Some (VObjectId o)) l1 ∧
    h' = Some (set_coll "workout" (l1 ++ l2) db) ∧
    body r = NoContent.
Proof.
  unfold DELETE_workout, route. destruct h as [db|].
  2: { rewrite delete_workout_no_db. by intros [= <- <-]. }
  rewrite delete_workout_eval.
  destruct (ObjectId_of_str workout_id) as [o|]; [|by intros [= <- <-]].
  destruct (delete_first _ _) as [l'|] eqn:Hd; [|by intros [= <- <-]].
  intros [= <- <-] _.
  destruct (delete_first_Some _ _ _ Hd) as (l1 & d & l2 & Hl & Hm & Hl1 & ->).
  rewrite matches_id in Hm. apply bool_decide_eq_true_1 in Hm.
  exists db, o, l1, d, l2. repeat split; try done.
  eapply Forall_impl; [exact Hl1|]. intros e He. simpl in He.
  rewrite matches_id in He. by apply bool_decide_eq_false_1 in He.
Qed.

(** X7: a DELETE that is answered 204 took out of the store the first
    record with the identifier and nothing else: the records before it and
    after it are kept, in their order, and the answer has no body. *)
Theorem DELETE_effect workout_id h h' r :
  DELETE_workout workout_id h = (h', r) →
  status r = 204 →
  ∃ db o (l1 : list document) d l2,
    h = Some db ∧ ObjectId_of_str workout_id = Some o ∧
    coll db "workout" = (l1 ++ d :: l2)%list ∧
    d !! "_id" = Some (VObjectId o) ∧
    Forall (λ e, e !! "_id" ≠ Some (VObjectId o)) l1 ∧
    h' = Some (set_coll "workout" (l1 ++ l2) db) ∧
    body r = NoContent.
Proof. apply DELETE_204_inv. Qed.

Lemma DELETE_effect_witness :
  let request := DELETE_workout "aaaaaaaaaaaaaaaaaaaaaaaa" in
  status (request (Some two_store)).2 = 204 ∧
  ∃ db o (l1 : list document) d l2,
    Some two_store = Some db ∧
    ObjectId_of_str "aaaaaaaaaaaaaaaaaaaaaaaa" = Some o ∧
    coll db "workout" = (l1 ++ d :: l2)%list ∧
    d !! "_id" = Some (VObjectId o) ∧
    Forall (λ e, e !! "_id" ≠ Some (VObjectId o)) l1 ∧
    (request (Some two_store)).1 = Some (set_coll "workout" (l1 ++ l2) db) ∧
    body (request (Some two_store)).2 = NoContent.
Proof.
  split; [reflexivity|].
  apply (DELETE_effect "aaaaaaaaaaaaaaaaaaaaaaaa" (Some two_store)).
  - apply surjective_pairing.
  - reflexivity.
Defined.

(** X8: when the stored workouts have distinct identifiers, a DELETE that
    is answered 204 leaves no record with the identifier, and the same
    DELETE sent again is answered 500 with the printed 404 as its detail and
    changes nothing. *)
Theorem DELETE_again workout_id db h' r :
  NoDup (doc_ids (coll db "workout")) →
  DELETE_workout workout_id (Some db) = (h', r) →
  status r = 204 →
  ∃ db' o,
    h' = Some db' ∧ ObjectId_of_str workout_id = Some o ∧
    Forall (λ e, e !! "_id" ≠ Some (VObjectId o)) (coll db' "workout") ∧
    DELETE_workout workout_id h' =
      (h', mkResponse 500 (Detail "404: Workout not found")).
Proof.
  intros Hnd Hr Hs.
  destruct (DELETE_204_inv _ _ _ _ Hr Hs)
    as (db0 & o & l1 & d & l2 & [= <-] & Eo & Hl & Hd & _ & -> & _).
  rewrite Hl in Hnd.
  pose proof (no_match_after_removal o l1 d l2 Hnd Hd) as Hnone.
  exists (set_coll "workout" (l1 ++ l2) db), o. rewrite coll_set_coll.
  repeat split; try done.
  - apply find_first_None_Forall in Hnone.
    eapply Forall_impl; [exact Hnone|]. intros e He. simpl in He.
    rewrite matches_id in He. by apply bool_decide_eq_false_1 in He.
  - unfold DELETE_workout, route.
    rewrite (delete_workout_missing _ _ o Eo); [done|]. by rewrite coll_set_coll.
Qed.

Lemma two_store_distinct : NoDup (doc_ids (coll two_store "workout")).
Proof. apply (bool_decide_unpack _). vm_compute. exact I. Qed.

Lemma DELETE_again_witness :
  let request := DELETE_workout "aaaaaaaaaaaaaaaaaaaaaaaa" in
  ∃ db' o,
    (request (Some two_store)).1 = Some db' ∧
    ObjectId_of_str "aaaaaaaaaaaaaaaaaaaaaaaa" = Some o ∧
    Forall (λ e, e !! "_id" ≠ Some (VObjectId o)) (coll db' "workout") ∧
    request (request (Some two_store)).1 =
      ((request (Some two_store)).1,
       mkResponse 500 (Detail "404: Workout not found")).
Proof.
  apply (DELETE_again "aaaaaaaaaaaaaaaaaaaaaaaa" two_store
           _ (DELETE_workout "aaaaaaaaaaaaaaaaaaaaaaaa" (Some two_store)).2).
  - exact two_store_distinct.
  - apply surjective_pairing.
  - reflexivity.
Defined.

Lemma NoDup_remove_middle {A} (l1 l2 : list A) x :
  NoDup (l1 ++ x :: l2) → NoDup (l1 ++ l2).
Proof.
  rewrite !NoDup_app, NoDup_cons. intros (H1 & H2 & _ & H3).
  repeat split; try done. intros y Hy Hin. apply (H2 y Hy). by right.
Qed.

Lemma no_id_not_elem o (l : list document) :
  find_first {["_id" := VObjectId o]} l = None →
  Some (VObjectId o) ∉ doc_ids l.
Proof.
  intros Hf%find_first_None_Forall Hin.
  apply list_elem_of_fmap in Hin as (e & He & Hin).
  rewrite Forall_forall in Hf. specialize (Hf e Hin). simpl in Hf.
  rewrite matches_id in Hf. by apply bool_decide_eq_false_1 in Hf.
Qed.

(** X9: distinct identifiers stay distinct: if no two stored workouts share
    an [_id], then none do in the store a PATCH or a DELETE leaves, whatever
    the request and whatever it is answered. *)
Theorem identifiers_stay_distinct workout_id payload db :
  NoDup (doc_ids (coll db "workout")) →
  (∀ db', (PATCH_workout workout_id payload (Some db)).1 = Some db' →
          NoDup (doc_ids (coll db' "workout"))) ∧
  (∀ db', (DELETE_workout workout_id (Some db)).1 = Some db' →
          NoDup (doc_ids (coll db' "workout"))).
Proof.
  intros Hnd. split; intros db'.
  - unfold PATCH_workout, route. rewrite update_workout_eval. by intros [= <-].
  - unfold DELETE_workout, route. rewrite delete_workout_eval.
    destruct (ObjectId_of_str workout_id) as [o|]; [|by intros [= <-]].
    destruct (delete_first _ _) as [l'|] eqn:Hd; [|by intros [= <-]].
    intros [= <-]. rewrite coll_set_coll.
    destruct (delete_first_Some _ _ _ Hd) as (l1 & d & l2 & Hl & _ & _ & ->).
    rewrite Hl, doc_ids_app in Hnd. simpl in Hnd.
    rewrite doc_ids_app. by apply NoDup_remove_middle in Hnd.
Qed.

Lemma identifiers_stay_distinct_witness :
  (∀ db', (PATCH_workout "aaaaaaaaaaaaaaaaaaaaaaaa" rename_and_clear
             (Some two_store)).1 = Some db' →
          NoDup (doc_ids (coll db' "workout"))) ∧
  (∀ db', (DELETE_workout "aaaaaaaaaaaaaaaaaaaaaaaa" (Some two_store)).1 = Some db' →
          NoDup (doc_ids (coll db' "workout"))).
Proof. apply identifiers_stay_distinct. exact two_store_distinct. Defined.

(** ** Creation and the store *)

(** X10: a POST on a connected store never changes or removes a stored
    record: either the store is left as it was, or the body passed
    validation, the answer is 201 and the new record, carrying the new
    identifier, was added after the stored ones.  Distinct identifiers stay
    distinct. *)
Theorem POST_appends new_id json db :
  ∃ db',
    (POST_workouts new_id json (Some db)).1 = Some db' ∧
    (db' = db ∨
     ∃ item, Workout.validate json = Some item ∧
       status (POST_workouts new_id json (Some db)).2 = 201 ∧
       coll db' "workout" =
         (coll db "workout" ++
          [<["_id" := VObjectId new_id]> (Workout.model_dump item)])%list) ∧
    (NoDup (doc_ids (coll db "workout")) → NoDup (doc_ids (coll db' "workout"))).
Proof.
  unfold POST_workouts. destruct (Workout.validate json) as [item|].
  2: { exists db. simpl. by repeat split; [left|]. }
  unfold route. rewrite create_workout_eval.
  destruct (find_first _ _) eqn:Hf.
  { exists db. simpl. by repeat split; [left|]. }
  eexists. split; [done|]. rewrite coll_set_coll. split.
  - right. by exists item.
  - intros Hnd. rewrite doc_ids_app. simpl. rewrite lookup_insert_eq.
    apply NoDup_app. repeat split; [done| |apply NoDup_singleton].
    intros x Hx Hin. apply list_elem_of_singleton in Hin as ->.
    by apply (no_id_not_elem _ _ Hf).
Qed.





(** ** Identifiers in the path *)

(** X12: the letter case of a well-formed path identifier does not matter:
    two identifiers that differ only in the case of their hexadecimal
    letters get the same answer and the same effect from PATCH and from
    DELETE. *)
Theorem identifier_case_insensitive workout_id workout_id' payload h :
  ObjectId_is_valid workout_id = true →
  string_map hex_lower workout_id = string_map hex_lower workout_id' →
  PATCH_workout workout_id payload h = PATCH_workout workout_id' payload h ∧
  DELETE_workout workout_id h = DELETE_workout workout_id' h.
Proof.
  intros Hv Hl.
  assert (ObjectId_of_str workout_id' = ObjectId_of_str workout_id) as E.
  { unfold ObjectId_of_str. by rewrite Hl. }
  apply ObjectId_of_str_is_Some in Hv as [o Ho].
  unfold PATCH_workout, DELETE_workout, route. destruct h as [db|].
  - by rewrite !update_workout_eval, !delete_workout_eval, E, Ho.
  - by rewrite !update_workout_eval, !delete_workout_no_db.
Qed.

Lemma identifier_case_insensitive_witness :
  PATCH_workout "AAAAAAAAAAAAAAAAAAAAAAAA" rename_and_clear (Some two_store) =
    PATCH_workout "aaaaaaaaaaaaaaaaaaaaaaaa" rename_and_clear (Some two_store) ∧
  DELETE_workout "AAAAAAAAAAAAAAAAAAAAAAAA" (Some two_store) =
    DELETE_workout "aaaaaaaaaaaaaaaaaaaaaaaa" (Some two_store).
Proof. apply identifier_case_insensitive; reflexivity. Defined.

(** ** Serialized records *)

(** X13: serializing a record whose [_id] is an [ObjectId] gives a record
    without [_id] whose [id] is the identifier's 24-digit string, replacing
    any [id] field the record had, and whose other fields are the
    record's. *)
Theorem serialize_doc_fields d o :
  d !! "_id" = Some (VObjectId o) →
  ∃ d',
    serialize_doc (Some d) = Some d' ∧
    d' !! "id" = Some (VStr (str_ObjectId o)) ∧
    String.length (str_ObjectId o) = 24%nat ∧
    d' !! "_id" = None ∧
    ∀ k, k ≠ "id" → k ≠ "_id" → d' !! k = d !! k.
Proof.
  intros Hd. eexists. split; [by apply serialize_doc_ObjectId|].
  repeat split.
  - by rewrite lookup_delete_ne, lookup_insert_eq.
  - apply str_ObjectId_length.
  - apply lookup_delete_eq.
  - intros k Hk Hk'. by rewrite lookup_delete_ne, lookup_insert_ne.
Qed.

Lemma serialize_doc_fields_witness :
  ∃ d',
    serialize_doc (Some (<["id" := VInt 7]> bench_doc)) = Some d' ∧
    d' !! "id" = Some (VStr (str_ObjectId oid_b)) ∧
    String.length (str_ObjectId oid_b) = 24%nat ∧
    d' !! "_id" = None ∧
    ∀ k, k ≠ "id" → k ≠ "_id" → d' !! k = (<["id" := VInt 7]> bench_doc) !! k.
Proof. apply serialize_doc_fields. reflexivity. Defined.

(** ** Listing by day *)



(** ** The diagnostic endpoint *)

(** X16: what [test_database] reports under [database_url] and
    [database_name] depends on the environment alone: each is the "set"
    mark when its variable is set to a non-empty string and the "not set"
    mark otherwise.  The "configured" mark and the name of the database,
    written earlier in the function, never reach the response. *)
Theorem diagnostics_environment outcome getenv :
  let response := Diagnostics.test_database outcome getenv in
  Diagnostics.database_url response =
    Some (if truthy_str (getenv "DATABASE_URL") then "✅ Set" else "❌ Not Set") ∧
  Diagnostics.database_name response =
    Some (if truthy_str (getenv "DATABASE_NAME") then "✅ Set" else "❌ Not Set") ∧
  Diagnostics.backend response = "✅ Running".
Proof.
  destruct outcome as [[db|]| |]; simpl; [|done..].
  by destruct (Diagnostics.list_collection_names db).
Qed.

(** X17: [test_database] reports at most ten collections, the first ten
    the driver listed, and none when the handle is [None], the import
    failed or the listing raised; it reports the connection as connected
    exactly when the imported handle is not [None], also when the listing
    raised. *)
Theorem diagnostics_collections outcome getenv :
  let response := Diagnostics.test_database outcome getenv in
  Diagnostics.collections response =
    take 10
      match outcome with
      | Diagnostics.Imported (Some db) =>
          match Diagnostics.list_collection_names db with
          | inr names => names
          | inl _ => []
          end
      | _ => []
      end ∧
  (length (Diagnostics.collections response) ≤ 10)%nat ∧
  (Diagnostics.connection_status response = "Connected" ↔
   ∃ db, outcome = Diagnostics.Imported (Some db)).
Proof.
  assert (∀ l : list string, (length (take 10 l) ≤ 10)%nat) as Hlen.
  { intros l. rewrite length_take. lia. }
  destruct outcome as [[db|]| |]; simpl.
  - destruct (Diagnostics.list_collection_names db) as [e|names]; simpl;
      (split; [done|]); (split; [apply Hlen || lia|]);
      (split; [by exists db|done]).
  - split; [done|]. split; [lia|]. split; [done|by intros [? ?]].
  - split; [done|]. split; [lia|]. split; [done|by intros [? ?]].
  - split; [done|]. split; [lia|]. split; [done|by intros [? ?]].
Qed.
